(** * Market entry strategy simulator: the simulation engine

    A shallow embedding of [simulate_strategy] from
    [market_strategy_app.py] together with the pieces of [main] that
    feed it (the price presets) and consume its table (the three metrics
    and the raw-data preview).

    Numbers.  The program computes with Python floats and NumPy float64
    arrays.  Two embeddings are given.

    The first models numbers as exact rationals [Q] and carries the
    general theorems.  It keeps what float64 arithmetic keeps under
    rounding: the order of numbers and the sign of sums, products and
    quotients.  A float64 zero has a sign, which NumPy's scale check
    reads; [Q] has one zero, so the sign bit of the baseline and of the
    scale is carried beside the value ([Signed]).  Identities of exact
    arithmetic that rounding breaks are not stated on this embedding.
    Equality of numbers is [Qeq] ([==]) unless a statement says
    otherwise.

    The second ([simulate_strategy64]) is the same engine on binary64
    floats and is used to evaluate runs bit for bit.

    Randomness.  The program draws from NumPy's process-global legacy
    generator.  Its state is passed explicitly ([RandomState]); the
    stream of standard normal deviates a seed determines is the single
    abstract component ([LegacyGauss]). *)

From Stdlib Require Import ZArith QArith Qminmax Qabs List String Bool Lia Lqa.
From Stdlib Require Import Floats.
Set Warnings "-inexact-float".
Import ListNotations.
Open Scope Q_scope.

(** ** Python exceptions and the state-and-exception monad *)

Inductive exn : Type :=
| ZeroDivisionError
| ValueError (msg : string).

Inductive result (A : Type) : Type :=
| Ok (a : A)
| Raise (e : exn).
Arguments Ok {A} a.
Arguments Raise {A} e.

(** The global generator [np.random]: the seed it was last initialised
    with and the number of normal deviates drawn since. *)
Record RandomState : Type := { key : Z; pos : nat }.

Definition M (A : Type) : Type := RandomState -> result A * RandomState.

Definition ret {A} (a : A) : M A := fun st => (Ok a, st).

Definition raise {A} (e : exn) : M A := fun st => (Raise e, st).

Definition bind {A B} (c : M A) (k : A -> M B) : M B :=
  fun st =>
    match c st with
    | (Ok a, st') => k a st'
    | (Raise e, st') => (Raise e, st')
    end.

Notation "x <- c ;; k" := (bind c (fun x => k))
  (at level 61, c at next level, right associativity).
Notation "c ;;; k" := (bind c (fun _ => k))
  (at level 61, right associativity).

(** ** Python and NumPy primitives *)

Definition Qlt_bool (x y : Q) : bool := negb (Qle_bool y x).

(** [x / y] on Python numbers. *)
Definition py_truediv (x y : Q) : M Q :=
  if Qeq_bool y 0 then raise ZeroDivisionError else ret (x / y).

(** A number together with its float64 sign bit.  The sign bit of a
    product is the exclusive or of the sign bits of its factors, also
    when the product is zero ([-3000.0 * 0.0] is [-0.0]); an input, a sum
    or a difference that is zero is [+0.0]. *)
Record Signed : Type := { value : Q; signbit : bool }.

Definition of_Q (x : Q) : Signed := {| value := x; signbit := Qlt_bool x 0 |}.

Definition smul (a b : Signed) : Signed :=
  {| value := value a * value b; signbit := xorb (signbit a) (signbit b) |}.

(** [np.random.seed(s)]. *)
Definition np_random_seed (s : Z) : M unit :=
  fun _ => (Ok tt, {| key := s; pos := 0 |}).

(** The stream behind [np.random.normal]: [legacy_gauss s i] is the
    [i]-th standard normal deviate produced after [np.random.seed(s)]. *)
Class LegacyGauss : Type := legacy_gauss : Z -> nat -> Q.

Section Engine.

Context {G : LegacyGauss}.

(** [np.random.normal(loc, scale, size)]: the scale is checked first, and
    rejected when its sign bit is set (so [-0.0] is rejected too); then
    the output array is allocated, then every entry is
    [loc + scale * gauss]. *)
Definition np_random_normal (loc : Q) (scale : Signed) (size : Z) : M (list Q) :=
  fun st =>
    if signbit scale then (Raise (ValueError "scale < 0"), st)
    else if (size <? 0)%Z
         then (Raise (ValueError "negative dimensions are not allowed"), st)
         else
           let n := Z.to_nat size in
           (Ok (map (fun i => loc + value scale
                                    * legacy_gauss (key st) (pos st + i))
                    (seq 0 n)),
            {| key := key st; pos := (pos st + n)%nat |}).

(** [np.clip(a, a_min, a_max)] is [minimum(maximum(a, a_min), a_max)],
    entry by entry. *)
Definition clamp (a_min a_max x : Q) : Q := Qmin (Qmax x a_min) a_max.

Definition np_clip (a : list Q) (a_min a_max : Q) : list Q :=
  map (clamp a_min a_max) a.

(** The table [pd.DataFrame({"Demand": .., "Revenue": .., "Profit": ..})]. *)
Record DataFrame : Type :=
  { Demand : list Q; Revenue : list Q; Profit : list Q }.

(** Line 22: [market_size * (1 - elasticity * (price - cost) / cost)],
    with the sign bit of the product. *)
Definition base_demand_signed (price cost elasticity market_size : Q) : M Signed :=
  q <- py_truediv (elasticity * (price - cost)) cost ;;
  ret (smul (of_Q market_size) (of_Q (1 - q))).

(** The value of the baseline. *)
Definition base_demand (price cost elasticity market_size : Q) : M Q :=
  b <- base_demand_signed price cost elasticity market_size ;;
  ret (value b).

Definition simulate_strategy
    (price cost elasticity market_size : Q) (strategy_type : string)
    (simulations : Z) (noise_std : Q) : M DataFrame :=
  np_random_seed 42 ;;;
  base_demand <- base_demand_signed price cost elasticity market_size ;;
  demand_dist <- np_random_normal (value base_demand)
                                  (smul base_demand (of_Q noise_std))
                                  simulations ;;
  let demand_dist := np_clip demand_dist 0 market_size in
  let revenue := map (fun d => d * price) demand_dist in
  let profit := map (fun d => d * (price - cost)) demand_dist in
  ret {| Demand := demand_dist; Revenue := revenue; Profit := profit |}.

(** Defaults of the keyword arguments. *)
Definition simulations_default : Z := 10000.
Definition noise_std_default : Q := 5 # 100.

(** ** The caller, [main] *)

(** The price the sidebar yields for a strategy; [slider] is the value of
    the price slider, read only for the custom strategy. *)
Definition strategy_price (strategy : string) (slider : Q) : Q :=
  if String.eqb strategy "Low Price" then 3
  else if String.eqb strategy "Premium" then 10
  else if String.eqb strategy "Penetration" then 15 # 10
  else slider.

(** [results = simulate_strategy(price, cost, elasticity, market_size, strategy)]. *)
Definition main_results
    (strategy : string) (slider cost elasticity market_size : Q) : M DataFrame :=
  simulate_strategy (strategy_price strategy slider) cost elasticity market_size
                    strategy simulations_default noise_std_default.

End Engine.

(** ** The engine on binary64 floats *)

(** The same stream with its deviates as floats. *)
Class LegacyGauss64 : Type := legacy_gauss64 : Z -> nat -> float.

Section Engine64.

Context {G : LegacyGauss64}.

(** [x / y] on Python floats; a zero divisor of either sign raises. *)
Definition py_truediv64 (x y : float) : M float :=
  if PrimFloat.eqb y 0 then raise ZeroDivisionError
  else ret (PrimFloat.div x y).

(** [np.random.normal]: a scale that is not NaN and has its sign bit set
    is rejected. *)
Definition np_random_normal64 (loc scale : float) (size : Z) : M (list float) :=
  fun st =>
    if negb (PrimFloat.is_nan scale) && PrimFloat.get_sign scale
    then (Raise (ValueError "scale < 0"), st)
    else if (size <? 0)%Z
         then (Raise (ValueError "negative dimensions are not allowed"), st)
         else
           let n := Z.to_nat size in
           (Ok (map (fun i =>
                       PrimFloat.add loc
                         (PrimFloat.mul scale
                            (legacy_gauss64 (key st) (pos st + i))))
                    (seq 0 n)),
            {| key := key st; pos := (pos st + n)%nat |}).

(** The maximum and minimum NumPy's clip loop uses: the first argument
    when it is NaN or strictly beyond the second, else the second. *)
Definition npy_max (a b : float) : float :=
  if PrimFloat.is_nan a || PrimFloat.ltb b a then a else b.

Definition npy_min (a b : float) : float :=
  if PrimFloat.is_nan a || PrimFloat.ltb a b then a else b.

Definition np_clip64 (a : list float) (a_min a_max : float) : list float :=
  map (fun x => npy_min (npy_max x a_min) a_max) a.

Record DataFrame64 : Type :=
  { Demand64 : list float; Revenue64 : list float; Profit64 : list float }.

Definition simulate_strategy64
    (price cost elasticity market_size : float) (strategy_type : string)
    (simulations : Z) (noise_std : float) : M DataFrame64 :=
  np_random_seed 42 ;;;
  q <- py_truediv64 (PrimFloat.mul elasticity (PrimFloat.sub price cost))
                    cost ;;
  let base_demand := PrimFloat.mul market_size (PrimFloat.sub 1 q) in
  demand_dist <- np_random_normal64 base_demand
                                    (PrimFloat.mul base_demand noise_std)
                                    simulations ;;
  let demand_dist := np_clip64 demand_dist 0 market_size in
  let revenue := map (fun d => PrimFloat.mul d price) demand_dist in
  let profit := map (fun d => PrimFloat.mul d (PrimFloat.sub price cost))
                    demand_dist in
  ret {| Demand64 := demand_dist; Revenue64 := revenue; Profit64 := profit |}.

End Engine64.

(** Rows of the table, in trial order. *)
Definition rows (df : DataFrame) : list (Q * Q * Q) :=
  combine (combine (Demand df) (Revenue df)) (Profit df).

(** [Series.mean()]; the mean of an empty series is NaN, here [None].
    The sum and the quotient are exact here and rounded in the program:
    the theorems on means state signs, and the range of a mean of zeros
    and ones, which rounding keeps. *)
Definition mean (xs : list Q) : option Q :=
  match xs with
  | [] => None
  | _ => Some (fold_right Qplus 0 xs / inject_Z (Z.of_nat (List.length xs)))
  end.

(** [(results['Profit'] > 0).mean()]. *)
Definition breakeven_chance (df : DataFrame) : option Q :=
  mean (map (fun b : bool => if b then 1 else 0)
            (map (fun p => Qlt_bool 0 p) (Profit df))).

(** [df.head(n)] on one column: the first [n] entries, and for a negative
    [n] all entries but the last [-n]. *)
Definition head_col (n : Z) (xs : list Q) : list Q :=
  if (0 <=? n)%Z then firstn (Z.to_nat n) xs
  else firstn (List.length xs - Z.to_nat (- n)) xs.

Definition head (n : Z) (df : DataFrame) : DataFrame :=
  {| Demand := head_col n (Demand df);
     Revenue := head_col n (Revenue df);
     Profit := head_col n (Profit df) |}.

(** The three numbers [main] puts in its metric boxes, before they are
    formatted: [results['Revenue'].mean()], [results['Profit'].mean()] and
    [(results['Profit'] > 0).mean() * 100]. *)
Record Summary : Type :=
  { avg_revenue : option Q; avg_profit : option Q;
    breakeven_percent : option Q }.

Definition summary (results : DataFrame) : Summary :=
  {| avg_revenue := mean (Revenue results);
     avg_profit := mean (Profit results);
     breakeven_percent :=
       option_map (fun c => c * 100) (breakeven_chance results) |}.

(** The values [main] computes from the table: the call on line 70, the
    three metrics of lines 75 to 77 and the preview [results.head(100)]
    of line 92.  What [main] renders (title, sidebar, charts), and the
    random subsample [results.sample(1000)] drawn for the scatter chart,
    are not modelled. *)
Definition main_summary {G : LegacyGauss}
    (strategy : string) (slider cost elasticity market_size : Q)
    : M (Summary * DataFrame) :=
  results <- main_results strategy slider cost elasticity market_size ;;
  ret (summary results, head 100 results).

(** The sum and the number of entries of a column, as [mean] uses them. *)
Definition total (xs : list Q) : Q := fold_right Qplus 0 xs.

Definition count_of (xs : list Q) : Q := inject_Z (Z.of_nat (List.length xs)).

(** ** Vocabulary of the specification *)

(** The constraints the specification puts on the inputs; the source
    checks none of them. *)
Definition valid_parameters
    (cost elasticity market_size : Q) (simulations : Z) (noise_std : Q) : Prop :=
  0 < cost /\ 0 < market_size /\ (0 < simulations)%Z /\
  0 <= elasticity /\ 0 <= noise_std.

(** The baseline demand as a formula, for [cost] different from zero. *)
Definition baseline (price cost elasticity market_size : Q) : Q :=
  market_size * (1 - elasticity * (price - cost) / cost).

(** The sign bit of the scale [base_demand * noise_std] handed to the
    sampler. *)
Definition scale_signbit (price cost elasticity market_size noise_std : Q) : bool :=
  xorb (xorb (Qlt_bool market_size 0)
             (Qlt_bool (1 - elasticity * (price - cost) / cost) 0))
       (Qlt_bool noise_std 0).

(** The raw draws around a baseline [b], and the table built from draws. *)
Definition samples {G : LegacyGauss} (b noise_std : Q) (n : nat) : list Q :=
  map (fun i => b + b * noise_std * legacy_gauss 42 i) (seq 0 n).

Definition frame (price cost market_size : Q) (xs : list Q) : DataFrame :=
  let demand := np_clip xs 0 market_size in
  {| Demand := demand;
     Revenue := map (fun d => d * price) demand;
     Profit := map (fun d => d * (price - cost)) demand |}.

(** The state [np.random.seed(42)] leaves behind. *)
Definition seeded : RandomState := {| key := 42; pos := 0 |}.

(** ** Test fixtures *)

(** A concrete stream for running the model: the first five deviates of
    the stream seeded with 42, to eight decimals, then zeros.
    Other seeds get the zero stream. *)
Definition seed42_head : LegacyGauss :=
  fun s i =>
    if (s =? 42)%Z then
      nth i [ 49671415 # 100000000; - (13826430 # 100000000);
              64768854 # 100000000; 152302986 # 100000000;
              - (23415337 # 100000000) ] 0
    else 0.

(** The same five deviates at full precision, as floats. *)
Definition seed42_head64 : LegacyGauss64 :=
  fun s i =>
    if (s =? 42)%Z then
      nth i [ 0.4967141530112327; -0.13826430117118466;
              0.6476885381006925; 1.5230298564080254;
              -0.23415337472333597 ]%float 0%float
    else 0%float.

Definition fresh_state : RandomState := {| key := 0; pos := 0 |}.

Definition table_of (r : result DataFrame * RandomState) : DataFrame :=
  match fst r with
  | Ok df => df
  | Raise _ => {| Demand := []; Revenue := []; Profit := [] |}
  end.

(** Five trials at [price = 3, cost = 2, elasticity = 0, market_size = 1000]
    with the default noise: the baseline sits on the upper bound, so the
    draws above it are clipped. *)
Definition clipped_table : DataFrame :=
  Eval vm_compute in
    table_of (simulate_strategy (G := seed42_head) 3 2 0 1000 "Low Price"
                                5 (5 # 100) fresh_state).

(** Five trials at [price = 3, cost = 2, elasticity = 1/2,
    market_size = 1000] with the default noise. *)
Definition noisy_table : DataFrame :=
  Eval vm_compute in
    table_of (simulate_strategy (G := seed42_head) 3 2 (1 # 2) 1000 "Low Price"
                                5 (5 # 100) fresh_state).


(** ** Comparisons and clamping *)

Lemma Qlt_bool_iff (x y : Q) : Qlt_bool x y = true <-> x < y.
Proof.
  unfold Qlt_bool. rewrite negb_true_iff, <- not_true_iff_false, Qle_bool_iff.
  split; [apply Qnot_le_lt | apply Qlt_not_le].
Qed.

Lemma Qlt_bool_false_iff (x y : Q) : Qlt_bool x y = false <-> y <= x.
Proof.
  unfold Qlt_bool. rewrite negb_false_iff. apply Qle_bool_iff.
Qed.

Lemma clamp_bounds (lo hi x : Q) : lo <= hi -> lo <= clamp lo hi x <= hi.
Proof.
  intros Hlh. unfold clamp. split.
  - apply Q.min_glb; [apply Q.le_max_r | exact Hlh].
  - apply Q.le_min_r.
Qed.

Lemma clamp_below (lo hi x : Q) : lo < hi -> x < lo -> clamp lo hi x = lo.
Proof.
  intros Hlh Hx. unfold clamp, Qmax, Qmin, GenericMinMax.gmax, GenericMinMax.gmin.
  assert (Hc : (x ?= lo) = Lt) by (apply Qlt_alt; exact Hx).
  assert (Hd : (lo ?= hi) = Lt) by (apply Qlt_alt; exact Hlh).
  rewrite Hc, Hd. reflexivity.
Qed.

Lemma clamp_above (lo hi x : Q) : lo < hi -> hi < x -> clamp lo hi x = hi.
Proof.
  intros Hlh Hx. unfold clamp, Qmax, Qmin, GenericMinMax.gmax, GenericMinMax.gmin.
  assert (Hxl : lo < x) by (eapply Qlt_trans; eassumption).
  assert (Hc : (x ?= lo) = Gt) by (apply Qgt_alt; exact Hxl).
  assert (Hd : (x ?= hi) = Gt) by (apply Qgt_alt; exact Hx).
  rewrite Hc, Hd. reflexivity.
Qed.

Lemma clamp_inside (lo hi x : Q) : lo <= x <= hi -> clamp lo hi x == x.
Proof.
  intros [Hl Hh]. unfold clamp.
  rewrite (Q.max_l x lo Hl). now apply Q.min_l.
Qed.

Lemma clamp_eq (lo hi x y : Q) :
  x == y -> lo <= y <= hi -> clamp lo hi x == y.
Proof.
  intros Hxy Hy. rewrite clamp_inside; [exact Hxy|].
  rewrite Hxy. exact Hy.
Qed.

Lemma np_clip_nth (a : list Q) (lo hi : Q) (i : nat) :
  nth_error (np_clip a lo hi) i = option_map (clamp lo hi) (nth_error a i).
Proof.
  unfold np_clip. rewrite nth_error_map. reflexivity.
Qed.

Lemma np_clip_Forall (a : list Q) (lo hi : Q) :
  lo <= hi -> Forall (fun d => lo <= d <= hi) (np_clip a lo hi).
Proof.
  intros Hlh. unfold np_clip. apply Forall_map, Forall_forall.
  intros x _. now apply clamp_bounds.
Qed.

(** ** Tables *)

Lemma combine_map_same {A B C : Type} (f : A -> B) (g : A -> C) (l : list A) :
  combine (combine l (map f l)) (map g l) = map (fun a => (a, f a, g a)) l.
Proof. induction l as [|a l IH]; simpl; [|rewrite IH]; reflexivity. Qed.

(** Row [i] of the table built from draws [xs] is the clamped draw with
    its revenue and profit. *)
Lemma rows_frame (price cost market_size : Q) (xs : list Q) :
  rows (frame price cost market_size xs) =
  map (fun x => let d := clamp 0 market_size x in
                (d, d * price, d * (price - cost))) xs.
Proof.
  unfold rows, frame; simpl.
  rewrite combine_map_same. unfold np_clip. now rewrite map_map.
Qed.

Lemma Demand_frame (price cost market_size : Q) (xs : list Q) :
  Demand (frame price cost market_size xs) = map (clamp 0 market_size) xs.
Proof. reflexivity. Qed.

Lemma Profit_frame (price cost market_size : Q) (xs : list Q) :
  Profit (frame price cost market_size xs) =
  map (fun x => clamp 0 market_size x * (price - cost)) xs.
Proof. unfold frame, np_clip; simpl. now rewrite map_map. Qed.

Lemma rows_frame_length (price cost market_size : Q) (xs : list Q) :
  List.length (rows (frame price cost market_size xs)) = List.length xs.
Proof. now rewrite rows_frame, length_map. Qed.

Lemma In_rows_frame (price cost market_size : Q) (xs : list Q) (d r p : Q) :
  In (d, r, p) (rows (frame price cost market_size xs)) ->
  In d (np_clip xs 0 market_size) /\ r = d * price /\ p = d * (price - cost).
Proof.
  rewrite rows_frame, in_map_iff. intros (x & Heq & Hin).
  cbv zeta in Heq. inversion Heq; subst.
  split; [|split]; try reflexivity.
  unfold np_clip. apply in_map_iff. now exists x.
Qed.

(** ** The break-even KPI *)

Lemma indicator_sum_all (bs : list bool) :
  Forall (fun b => b = true) bs ->
  fold_right Qplus 0 (map (fun b : bool => if b then 1 else 0) bs) ==
  inject_Z (Z.of_nat (List.length bs)).
Proof.
  induction 1 as [|b bs Hb _ IH]; simpl List.length; simpl fold_right.
  - reflexivity.
  - subst b. rewrite IH, Nat2Z.inj_succ. unfold Z.succ.
    rewrite inject_Z_plus. simpl. ring.
Qed.

(** When every trial makes a profit the break-even chance is one. *)
Lemma breakeven_all_profitable (df : DataFrame) :
  Profit df <> [] ->
  Forall (fun p => 0 < p) (Profit df) ->
  exists c, breakeven_chance df = Some c /\ c == 1.
Proof.
  intros Hne Hall. unfold breakeven_chance, mean.
  set (bs := map (fun p => Qlt_bool 0 p) (Profit df)).
  assert (Hbs : Forall (fun b => b = true) bs).
  { apply Forall_map. eapply Forall_impl; [|exact Hall].
    intros p Hp. now apply Qlt_bool_iff. }
  assert (Hlen : bs <> []).
  { unfold bs. destruct (Profit df); [congruence | discriminate]. }
  destruct (map (fun b : bool => if b then 1 else 0) bs) as [|q qs] eqn:E.
  - destruct bs; [congruence | discriminate].
  - eexists. split; [reflexivity|]. rewrite <- E.
    rewrite indicator_sum_all by exact Hbs. rewrite length_map.
    field. intros H0. destruct bs as [|b bs']; [congruence|].
    simpl List.length in H0. rewrite Nat2Z.inj_succ in H0.
    unfold Qeq in H0; simpl in H0. lia.
Qed.

(** ** Running the engine *)

Section Properties.

Context {G : LegacyGauss}.

Lemma base_demand_signed_run
    (price cost elasticity market_size : Q) (st : RandomState) :
  base_demand_signed price cost elasticity market_size st =
  if Qeq_bool cost 0 then (Raise ZeroDivisionError, st)
  else (Ok (smul (of_Q market_size)
                 (of_Q (1 - elasticity * (price - cost) / cost))), st).
Proof.
  unfold base_demand_signed, bind, py_truediv.
  destruct (Qeq_bool cost 0); reflexivity.
Qed.

Lemma base_demand_run (price cost elasticity market_size : Q) (st : RandomState) :
  base_demand price cost elasticity market_size st =
  if Qeq_bool cost 0 then (Raise ZeroDivisionError, st)
  else (Ok (baseline price cost elasticity market_size), st).
Proof.
  unfold base_demand, bind at 1. rewrite base_demand_signed_run.
  destruct (Qeq_bool cost 0); reflexivity.
Qed.

(** A sign bit that is clear leaves a scale that is not negative. *)
Lemma scale_signbit_false (price cost elasticity market_size noise_std : Q) :
  scale_signbit price cost elasticity market_size noise_std = false ->
  0 <= baseline price cost elasticity market_size * noise_std.
Proof.
  unfold scale_signbit, baseline.
  generalize (1 - elasticity * (price - cost) / cost). intros t.
  destruct (Qlt_bool market_size 0) eqn:Hm;
    destruct (Qlt_bool t 0) eqn:Ht;
    destruct (Qlt_bool noise_std 0) eqn:Hs; simpl; try discriminate; intros _;
    repeat match goal with
           | H : Qlt_bool _ 0 = true |- _ => apply Qlt_bool_iff in H
           | H : Qlt_bool _ 0 = false |- _ => apply Qlt_bool_false_iff in H
           end.
  - assert (0 <= market_size * t) by nra. nra.
  - assert (market_size * t <= 0) by nra. nra.
  - assert (market_size * t <= 0) by nra. nra.
  - assert (0 <= market_size * t) by nra. nra.
Qed.

(** Every path through [simulate_strategy], with the state it leaves. *)
Lemma simulate_strategy_run
    (price cost elasticity market_size : Q) (strategy_type : string)
    (simulations : Z) (noise_std : Q) (st : RandomState) :
  simulate_strategy price cost elasticity market_size strategy_type
                    simulations noise_std st =
  if Qeq_bool cost 0 then (Raise ZeroDivisionError, seeded)
  else
    let b := baseline price cost elasticity market_size in
    if scale_signbit price cost elasticity market_size noise_std
    then (Raise (ValueError "scale < 0"), seeded)
    else if (simulations <? 0)%Z
         then (Raise (ValueError "negative dimensions are not allowed"), seeded)
         else (Ok (frame price cost market_size
                         (samples b noise_std (Z.to_nat simulations))),
               {| key := 42; pos := Z.to_nat simulations |}).
Proof.
  unfold simulate_strategy, bind at 1 2. simpl.
  rewrite base_demand_signed_run.
  destruct (Qeq_bool cost 0); [reflexivity|].
  unfold bind, np_random_normal; simpl.
  fold (scale_signbit price cost elasticity market_size noise_std).
  destruct (scale_signbit _ _ _ _ _); [reflexivity|].
  destruct (simulations <? 0)%Z; reflexivity.
Qed.

(** A returned table determines the path that was taken. *)
Lemma simulate_strategy_Ok
    (price cost elasticity market_size : Q) (strategy_type : string)
    (simulations : Z) (noise_std : Q) (st : RandomState) (df : DataFrame) :
  fst (simulate_strategy price cost elasticity market_size strategy_type
                         simulations noise_std st) = Ok df ->
  ~ cost == 0 /\
  0 <= baseline price cost elasticity market_size * noise_std /\
  (0 <= simulations)%Z /\
  df = frame price cost market_size
             (samples (baseline price cost elasticity market_size) noise_std
                      (Z.to_nat simulations)).
Proof.
  rewrite simulate_strategy_run.
  destruct (Qeq_bool cost 0) eqn:Hc; [discriminate|].
  cbv zeta.
  destruct (scale_signbit _ _ _ _ _) eqn:Hs; [discriminate|].
  destruct (simulations <? 0)%Z eqn:Hn; [discriminate|].
  simpl. intros H; inversion H; subst.
  repeat split.
  - now apply Qeq_bool_neq.
  - now apply scale_signbit_false.
  - now apply Z.ltb_ge.
Qed.

Lemma simulate_strategy_Ok_signbit
    (price cost elasticity market_size : Q) (strategy_type : string)
    (simulations : Z) (noise_std : Q) (st : RandomState) (df : DataFrame) :
  fst (simulate_strategy price cost elasticity market_size strategy_type
                         simulations noise_std st) = Ok df ->
  scale_signbit price cost elasticity market_size noise_std = false.
Proof.
  rewrite simulate_strategy_run.
  destruct (Qeq_bool cost 0) eqn:Hc; [discriminate|].
  cbv zeta.
  destruct (scale_signbit _ _ _ _ _) eqn:Hs; [discriminate | reflexivity].
Qed.

(** The engine returns a table whenever the division, the scale check and
    the allocation go through. *)
Lemma simulate_strategy_returns
    (price cost elasticity market_size : Q) (strategy_type : string)
    (simulations : Z) (noise_std : Q) (st : RandomState) :
  ~ cost == 0 ->
  scale_signbit price cost elasticity market_size noise_std = false ->
  (0 <= simulations)%Z ->
  simulate_strategy price cost elasticity market_size strategy_type
                    simulations noise_std st =
  (Ok (frame price cost market_size
             (samples (baseline price cost elasticity market_size) noise_std
                      (Z.to_nat simulations))),
   {| key := 42; pos := Z.to_nat simulations |}).
Proof.
  intros Hc Hs Hn. rewrite simulate_strategy_run.
  destruct (Qeq_bool cost 0) eqn:Ec.
  - apply Qeq_bool_iff in Ec. contradiction.
  - cbv zeta. rewrite Hs.
    apply Z.ltb_ge in Hn. rewrite Hn. reflexivity.
Qed.

(** The sign bit is clear when the markup term
    [elasticity * (price - cost) / cost] is not positive and neither the
    market size nor the noise level is negative. *)
Lemma scale_signbit_nonpositive_markup
    (price cost elasticity market_size noise_std : Q) :
  0 <= market_size -> 0 <= noise_std ->
  elasticity * (price - cost) / cost <= 0 ->
  scale_signbit price cost elasticity market_size noise_std = false.
Proof.
  intros Hm Hs Hq. unfold scale_signbit.
  apply Qlt_bool_false_iff in Hm. apply Qlt_bool_false_iff in Hs.
  rewrite Hm, Hs.
  assert (Ht : Qlt_bool (1 - elasticity * (price - cost) / cost) 0 = false).
  { apply Qlt_bool_false_iff. lra. }
  now rewrite Ht.
Qed.

Lemma samples_length (b noise_std : Q) (n : nat) :
  List.length (samples b noise_std n) = n.
Proof. unfold samples. now rewrite length_map, length_seq. Qed.

Lemma samples_nth (b noise_std : Q) (n i : nat) :
  (i < n)%nat ->
  nth_error (samples b noise_std n) i =
  Some (b + b * noise_std * legacy_gauss 42 i).
Proof.
  intros Hi. unfold samples.
  rewrite nth_error_map, nth_error_seq.
  destruct (Nat.ltb_spec i n); [reflexivity | lia].
Qed.

(** ** Failure modes *)


(** ** The baseline and the sampling scale *)

(** The baseline is the elasticity formula whenever the division is
    defined (first part of C7). *)
Lemma base_demand_formula
    (price cost elasticity market_size : Q) (st : RandomState) :
  ~ cost == 0 ->
  base_demand price cost elasticity market_size st =
  (Ok (market_size * (1 - elasticity * (price - cost) / cost)), st).
Proof.
  intros Hc. rewrite base_demand_run.
  destruct (Qeq_bool cost 0) eqn:Ec; [|reflexivity].
  apply Qeq_bool_iff in Ec. contradiction.
Qed.

(** With zero elasticity the baseline is the market size, whatever the
    price (second part of C7). *)
Lemma base_demand_elasticity_zero
    (price cost elasticity market_size : Q) (st : RandomState) :
  ~ cost == 0 -> elasticity == 0 ->
  exists b, base_demand price cost elasticity market_size st = (Ok b, st) /\
            b == market_size.
Proof.
  intros Hc He. eexists. split; [now apply base_demand_formula|].
  rewrite He. field. exact Hc.
Qed.

(** The scale handed to the sampler is [baseline * noise_std], so every
    raw draw is [baseline + baseline * noise_std * gauss]; for a baseline
    that is not negative this is [|baseline| * noise_std]. *)
Lemma scale_nonnegative_baseline (b noise_std : Q) :
  0 <= b -> b * noise_std == Qabs b * noise_std.
Proof. intros Hb. now rewrite (Qabs_pos b Hb). Qed.

(** With a zero baseline every draw, and so every demand, is zero. *)
Lemma zero_baseline_demand
    (price cost elasticity market_size : Q) (strategy_type : string)
    (simulations : Z) (noise_std : Q) (st : RandomState) (df : DataFrame) :
  0 <= market_size ->
  baseline price cost elasticity market_size == 0 ->
  fst (simulate_strategy price cost elasticity market_size strategy_type
                         simulations noise_std st) = Ok df ->
  Forall (fun d => d == 0) (Demand df).
Proof.
  intros Hm Hb Hok.
  apply simulate_strategy_Ok in Hok as (_ & _ & _ & ->).
  rewrite Demand_frame. unfold samples.
  apply Forall_map, Forall_map, Forall_forall. intros i _.
  apply clamp_eq; [rewrite Hb; ring | split; [apply Qle_refl | exact Hm]].
Qed.

(** ** The returned table *)

(** C3.  For valid parameters every demand of a returned table lies in
    [[0, market_size]]; trial [i] holds the clamped draw: exactly [0] when
    the draw is negative, exactly [market_size] when the draw exceeds it,
    the draw itself otherwise. *)
Theorem demand_within_market
    (price cost elasticity market_size : Q) (strategy_type : string)
    (simulations : Z) (noise_std : Q) (st : RandomState) (df : DataFrame) :
  valid_parameters cost elasticity market_size simulations noise_std ->
  fst (simulate_strategy price cost elasticity market_size strategy_type
                         simulations noise_std st) = Ok df ->
  Forall (fun d => 0 <= d <= market_size) (Demand df) /\
  forall i : nat, (Z.of_nat i < simulations)%Z ->
    let b := baseline price cost elasticity market_size in
    let x := b + b * noise_std * legacy_gauss 42 i in
    exists d, nth_error (Demand df) i = Some d /\
              0 <= d <= market_size /\
              (x < 0 -> d = 0) /\
              (market_size < x -> d = market_size) /\
              (0 <= x <= market_size -> d == x).
Proof.
  intros (_ & Hm & _ & _ & _) Hok.
  apply simulate_strategy_Ok in Hok as (_ & _ & Hn & ->).
  simpl. split.
  - apply np_clip_Forall. now apply Qlt_le_weak.
  - intros i Hi. cbv zeta.
    rewrite np_clip_nth, samples_nth by lia. simpl.
    eexists. split; [reflexivity|].
    split; [apply clamp_bounds; now apply Qlt_le_weak|].
    split; [|split].
    + now apply clamp_below.
    + now apply clamp_above.
    + now apply clamp_inside.
Qed.

(** C4.  In a returned table the revenue column is the demand column
    times [price] and the profit column is the demand column times
    [price - cost], entry by entry and as the very same rational (no
    rounding, no further draw); the demand is the clamped one. *)
Theorem revenue_profit_exact
    (price cost elasticity market_size : Q) (strategy_type : string)
    (simulations : Z) (noise_std : Q) (st : RandomState) (df : DataFrame) :
  fst (simulate_strategy price cost elasticity market_size strategy_type
                         simulations noise_std st) = Ok df ->
  Demand df = np_clip (samples (baseline price cost elasticity market_size)
                               noise_std (Z.to_nat simulations))
                      0 market_size /\
  Revenue df = map (fun d => d * price) (Demand df) /\
  Profit df = map (fun d => d * (price - cost)) (Demand df) /\
  forall d r p, In (d, r, p) (rows df) ->
                r = d * price /\ p = d * (price - cost).
Proof.
  intros Hok. apply simulate_strategy_Ok in Hok as (_ & _ & _ & ->).
  repeat split; try reflexivity;
    match goal with Hin : In _ (rows _) |- _ => apply In_rows_frame in Hin end;
    tauto.
Qed.

(** C5.  For valid parameters a returned table has exactly [simulations]
    rows, and each of its three columns has that length. *)
Theorem result_length
    (price cost elasticity market_size : Q) (strategy_type : string)
    (simulations : Z) (noise_std : Q) (st : RandomState) (df : DataFrame) :
  valid_parameters cost elasticity market_size simulations noise_std ->
  fst (simulate_strategy price cost elasticity market_size strategy_type
                         simulations noise_std st) = Ok df ->
  Z.of_nat (List.length (rows df)) = simulations /\
  Z.of_nat (List.length (Demand df)) = simulations /\
  Z.of_nat (List.length (Revenue df)) = simulations /\
  Z.of_nat (List.length (Profit df)) = simulations.
Proof.
  intros (_ & _ & Hn & _ & _) Hok.
  apply simulate_strategy_Ok in Hok as (_ & _ & _ & ->).
  rewrite rows_frame_length. unfold frame, np_clip; simpl.
  rewrite !length_map, samples_length. lia.
Qed.

(** C6.  The engine reseeds the generator itself, so two runs on the same
    parameters agree whatever state the generator was in: same outcome
    (the same table, trial by trial, or the same exception) and same
    final generator state. *)
Theorem simulate_strategy_deterministic
    (price cost elasticity market_size : Q) (strategy_type : string)
    (simulations : Z) (noise_std : Q) (st1 st2 : RandomState) :
  simulate_strategy price cost elasticity market_size strategy_type
                    simulations noise_std st1 =
  simulate_strategy price cost elasticity market_size strategy_type
                    simulations noise_std st2.
Proof.
  (* each run starts by overwriting the incoming state with the seeded one *)
  rewrite (simulate_strategy_run price cost elasticity market_size
                                 strategy_type simulations noise_std st1).
  rewrite (simulate_strategy_run price cost elasticity market_size
                                 strategy_type simulations noise_std st2).
  reflexivity.
Qed.

(** C8.  The strategy label does not reach the computation: two runs that
    differ only in the label return the same outcome and leave the same
    generator state. *)
Theorem strategy_type_irrelevant
    (price cost elasticity market_size : Q) (label1 label2 : string)
    (simulations : Z) (noise_std : Q) (st : RandomState) :
  simulate_strategy price cost elasticity market_size label1
                    simulations noise_std st =
  simulate_strategy price cost elasticity market_size label2
                    simulations noise_std st.
Proof.
  (* no path through the body mentions the label *)
  rewrite (simulate_strategy_run price cost elasticity market_size
                                 label1 simulations noise_std st).
  rewrite (simulate_strategy_run price cost elasticity market_size
                                 label2 simulations noise_std st).
  reflexivity.
Qed.

(** C10 (as amended).  For valid parameters every row of a returned
    table holds the two products of one clamped demand,
    [revenue = demand * price] and [profit = demand * (price - cost)], so
    profit never exceeds revenue, revenue is not negative when
    [price > 0], and profit is not positive when [price < cost].  (The
    identity [profit = revenue - demand * cost] of exact arithmetic is
    not kept by the rounded float64 products, as the run on binary64
    floats further down shows.)  Profit can be negative: pricing
    below cost on the valid input [price = 3/2, cost = 2, elasticity = 1,
    market_size = 1000, noise_std = 0] gives rows of profit [-500]. *)
Theorem profit_revenue_order :
  (forall (price cost elasticity market_size : Q) (strategy_type : string)
          (simulations : Z) (noise_std : Q) (st : RandomState)
          (df : DataFrame) (d r p : Q),
      valid_parameters cost elasticity market_size simulations noise_std ->
      fst (simulate_strategy price cost elasticity market_size strategy_type
                             simulations noise_std st) = Ok df ->
      In (d, r, p) (rows df) ->
      r = d * price /\ p = d * (price - cost) /\
      p <= r /\ (0 < price -> 0 <= r) /\ (price < cost -> p <= 0)) /\
  (forall st : RandomState,
      valid_parameters 2 1 1000 3 0 /\
      exists df, fst (simulate_strategy (15 # 10) 2 1 1000 "Penetration" 3 0 st)
                 = Ok df /\
                 Forall (fun row => snd row == - (500)) (rows df) /\
                 rows df <> []).
Proof.
  split.
  - intros price cost elasticity market_size strategy_type simulations
           noise_std st df d r p (Hc & Hm & _ & _ & _) Hok Hin.
    apply simulate_strategy_Ok in Hok as (_ & _ & _ & ->).
    apply In_rows_frame in Hin as (Hd & -> & ->).
    assert (Hb : 0 <= d <= market_size).
    { pose proof (np_clip_Forall
                    (samples (baseline price cost elasticity market_size)
                             noise_std (Z.to_nat simulations))
                    0 market_size (Qlt_le_weak _ _ Hm)) as HF.
      rewrite Forall_forall in HF. now apply HF. }
    split; [reflexivity | split; [reflexivity|]].
    split; [nra | split; intros; nra].
  - intros st. split.
    + unfold valid_parameters. repeat split; try lia; try reflexivity;
        discriminate.
    + eexists. split.
      * rewrite simulate_strategy_returns;
          [reflexivity | discriminate | reflexivity | lia].
      * split; [|discriminate].
        rewrite rows_frame. unfold samples.
        apply Forall_map, Forall_map, Forall_forall. intros i _.
        cbv zeta. simpl snd.
        rewrite clamp_above; [reflexivity | reflexivity |].
        unfold baseline. ring_simplify. reflexivity.
Qed.

End Properties.

(** ** Scenarios *)

Section Scenarios.

Context {G : LegacyGauss}.

(** C9.  At [price = 3, cost = 2, elasticity = 1/2, market_size = 1000,
    noise_std = 0, simulations = 5] the engine returns five rows, each
    with demand 750, revenue 2250 and profit 750, and the break-even
    chance of that table is 1. *)
Theorem scenario_zero_noise (strategy_type : string) (st : RandomState) :
  exists df,
    fst (simulate_strategy 3 2 (1 # 2) 1000 strategy_type 5 0 st) = Ok df /\
    List.length (rows df) = 5%nat /\
    Forall (fun row => fst (fst row) == 750 /\ snd (fst row) == 2250 /\
                       snd row == 750) (rows df) /\
    exists c, breakeven_chance df = Some c /\ c == 1.
Proof.
  assert (Hb : baseline 3 2 (1 # 2) 1000 == 750) by reflexivity.
  assert (Hd : forall i, clamp 0 1000
                           (baseline 3 2 (1 # 2) 1000 +
                            baseline 3 2 (1 # 2) 1000 * 0 * legacy_gauss 42 i)
                         == 750).
  { intros i. apply clamp_eq; [rewrite Hb; ring | split; discriminate]. }
  eexists. split; [|split; [|split]].
  - rewrite simulate_strategy_returns;
      [reflexivity | discriminate | reflexivity | lia].
  - now rewrite rows_frame_length, samples_length.
  - rewrite rows_frame. apply Forall_map. unfold samples.
    apply Forall_map, Forall_forall. intros i _. cbv zeta. simpl fst; simpl snd.
    rewrite (Hd i). repeat split; reflexivity.
  - apply breakeven_all_profitable.
    + discriminate.
    + rewrite Profit_frame. unfold samples.
      apply Forall_map, Forall_map, Forall_forall. intros i _.
      rewrite (Hd i). reflexivity.
Qed.

(** C2, at the input the application produces for the Premium preset
    with its default cost, elasticity and market size.  The baseline is
    [-30000]; the scale handed to the sampler is [baseline * noise_std =
    -1500], not [|baseline| * noise_std = 1500]; the sampler rejects it
    and the run ends with [ValueError "scale < 0"] and no table. *)
Theorem premium_preset_negative_scale (slider : Q) (st : RandomState) :
  exists b,
    base_demand (strategy_price "Premium" slider) 2 1 10000 seeded
      = (Ok b, seeded) /\
    b == - (30000) /\
    b * noise_std_default == - (1500) /\
    Qabs b * noise_std_default == 1500 /\
    np_random_normal b (smul (of_Q b) (of_Q noise_std_default))
                     simulations_default seeded
      = (Raise (ValueError "scale < 0"), seeded) /\
    main_results "Premium" slider 2 1 10000 st
      = (Raise (ValueError "scale < 0"), seeded).
Proof.
  eexists. split; [reflexivity|].
  repeat split; reflexivity.
Qed.

(** C7, at the input the application produces for the Custom strategy
    with every control at its default ([price = 5]).  The baseline is
    computed, and is [-5000]; the run then ends with
    [ValueError "scale < 0"] instead of clamping. *)
Theorem negative_baseline_rejected (st : RandomState) :
  exists b,
    base_demand (strategy_price "Custom" 5) 2 1 10000 st = (Ok b, st) /\
    b == - (5000) /\
    main_results "Custom" 5 2 1 10000 st
      = (Raise (ValueError "scale < 0"), seeded).
Proof.
  eexists. split; [reflexivity|]. split; reflexivity.
Qed.

End Scenarios.

(** ** Runs on binary64 floats *)

(** C10 fails as stated, on the program's own arithmetic.  At the valid
    input [price = 3, cost = 2, elasticity = 0.5, market_size = 1000,
    simulations = 5, noise_std = 0.05] the first row is demand
    [768.6267807379212], revenue [2305.8803422137635], profit
    [768.6267807379212], while [revenue - demand * cost] is
    [768.6267807379211].  The same happens without any noise: at
    [price = 0.3, cost = 0.1, elasticity = 0, market_size = 1000,
    noise_std = 0] every row is demand [1000], revenue [300], profit
    [199.99999999999997], and [revenue - demand * cost] is [200]. *)
Lemma profit_revenue_relation_inexact :
  (exists df,
      fst (simulate_strategy64 (G := seed42_head64) 3 2 0.5 1000 "Low Price"
                               5 0.05 fresh_state) = Ok df /\
      nth_error (Demand64 df) 0 = Some 768.6267807379212%float /\
      nth_error (Revenue64 df) 0 = Some 2305.8803422137635%float /\
      nth_error (Profit64 df) 0 = Some 768.6267807379212%float /\
      (2305.8803422137635 - 768.6267807379212 * 2)%float
      = 768.6267807379211%float /\
      PrimFloat.eqb 768.6267807379212
                    (2305.8803422137635 - 768.6267807379212 * 2) = false) /\
  (exists df,
      fst (simulate_strategy64 (G := seed42_head64) 0.3 0.1 0 1000 "Custom"
                               3 0 fresh_state) = Ok df /\
      Demand64 df = [1000; 1000; 1000]%float /\
      Revenue64 df = [300; 300; 300]%float /\
      Profit64 df = [199.99999999999997; 199.99999999999997;
                     199.99999999999997]%float /\
      (300 - 1000 * 0.1)%float = 200%float /\
      PrimFloat.eqb 199.99999999999997 (300 - 1000 * 0.1) = false).
Proof.
  split; eexists; repeat split; vm_compute; reflexivity.
Qed.

(** The zero-noise scenario of C9, bit for bit. *)
Lemma float64_scenario_zero_noise :
  fst (simulate_strategy64 (G := seed42_head64) 3 2 0.5 1000 "Low Price" 5 0
                           fresh_state)
  = Ok {| Demand64 := [750; 750; 750; 750; 750]%float;
          Revenue64 := [2250; 2250; 2250; 2250; 2250]%float;
          Profit64 := [750; 750; 750; 750; 750]%float |}.
Proof. vm_compute. reflexivity. Qed.

(** The two defaults of [main] behind C2 and C7, bit for bit. *)
Lemma float64_negative_baseline_rejected :
  simulate_strategy64 (G := seed42_head64) 10 2 1 10000 "Premium" 10000 0.05
                      fresh_state
  = (Raise (ValueError "scale < 0"), seeded) /\
  simulate_strategy64 (G := seed42_head64) 5 2 1 10000 "Custom" 10000 0.05
                      fresh_state
  = (Raise (ValueError "scale < 0"), seeded).
Proof. split; vm_compute; reflexivity. Qed.

(** A scale of [-0.0] is rejected as well: a negative baseline with
    [noise_std = 0] ([-3000.0 * 0.0]), and a market size of zero with a
    negative factor ([0.0 * -3.0 * 0.05]). *)
Lemma float64_negative_zero_scale :
  (-3000 * 0)%float = (-0)%float /\
  simulate_strategy64 (G := seed42_head64) 10 2 1 1000 "Premium" 5 0
                      fresh_state
  = (Raise (ValueError "scale < 0"), seeded) /\
  simulate_strategy64 (G := seed42_head64) 10 2 1 0 "Premium" 5 0.05
                      fresh_state
  = (Raise (ValueError "scale < 0"), seeded).
Proof. repeat split; vm_compute; reflexivity. Qed.

(** Rounding can move a baseline across zero: at [price = 1,
    cost = 0.6, elasticity = 1.5] the markup term is 1 in exact
    arithmetic on the decimal inputs, the float64 baseline is
    [-2.2204460492503131e-12], and the run is rejected. *)
Lemma float64_rounded_baseline :
  (10000 * (1 - 1.5 * (1 - 0.6) / 0.6))%float
  = (-2.2204460492503131e-12)%float /\
  simulate_strategy64 (G := seed42_head64) 1 0.6 1.5 10000 "Custom" 5 0.05
                      fresh_state
  = (Raise (ValueError "scale < 0"), seeded).
Proof. split; vm_compute; reflexivity. Qed.

(** ** Runs on the fixtures *)

Ltac valid_by_computation :=
  unfold valid_parameters; repeat split; try reflexivity; try discriminate.



Lemma demand_within_market_witness :
  valid_parameters 2 0 1000 5 (5 # 100) /\
  Forall (fun d => 0 <= d <= 1000) (Demand clipped_table) /\
  nth_error (Demand clipped_table) 0 = Some 1000.
Proof.
  assert (Hv : valid_parameters 2 0 1000 5 (5 # 100)) by valid_by_computation.
  assert (Hok : fst (simulate_strategy (G := seed42_head) 3 2 0 1000
                                       "Low Price" 5 (5 # 100) fresh_state)
                = Ok clipped_table) by (vm_compute; reflexivity).
  split; [exact Hv | split; [|reflexivity]].
  exact (proj1 (demand_within_market (G := seed42_head) 3 2 0 1000 "Low Price"
                                     5 (5 # 100) fresh_state clipped_table
                                     Hv Hok)).
Defined.

Lemma revenue_profit_exact_witness :
  Revenue noisy_table = map (fun d => d * 3) (Demand noisy_table) /\
  Profit noisy_table = map (fun d => d * (3 - 2)) (Demand noisy_table).
Proof.
  assert (Hok : fst (simulate_strategy (G := seed42_head) 3 2 (1 # 2) 1000
                                       "Low Price" 5 (5 # 100) fresh_state)
                = Ok noisy_table) by (vm_compute; reflexivity).
  pose proof (revenue_profit_exact (G := seed42_head) 3 2 (1 # 2) 1000
                                   "Low Price" 5 (5 # 100) fresh_state
                                   noisy_table Hok) as (_ & Hr & Hp & _).
  split; [exact Hr | exact Hp].
Defined.

Lemma result_length_witness :
  valid_parameters 2 (1 # 2) 1000 5 (5 # 100) /\
  Z.of_nat (List.length (rows noisy_table)) = 5%Z.
Proof.
  assert (Hv : valid_parameters 2 (1 # 2) 1000 5 (5 # 100))
    by valid_by_computation.
  assert (Hok : fst (simulate_strategy (G := seed42_head) 3 2 (1 # 2) 1000
                                       "Low Price" 5 (5 # 100) fresh_state)
                = Ok noisy_table) by (vm_compute; reflexivity).
  split; [exact Hv|].
  exact (proj1 (result_length (G := seed42_head) 3 2 (1 # 2) 1000 "Low Price"
                              5 (5 # 100) fresh_state noisy_table Hv Hok)).
Defined.

Lemma profit_revenue_order_witness :
  valid_parameters 2 0 1000 5 (5 # 100) /\
  let row := nth 1 (rows clipped_table) (0, 0, 0) in
  snd row <= snd (fst row) /\ 0 <= snd (fst row).
Proof.
  assert (Hv : valid_parameters 2 0 1000 5 (5 # 100)) by valid_by_computation.
  assert (Hok : fst (simulate_strategy (G := seed42_head) 3 2 0 1000
                                       "Low Price" 5 (5 # 100) fresh_state)
                = Ok clipped_table) by (vm_compute; reflexivity).
  split; [exact Hv|]. cbv zeta.
  set (row := nth 1 (rows clipped_table) (0, 0, 0)).
  assert (Hin : In (fst (fst row), snd (fst row), snd row) (rows clipped_table))
    by (vm_compute; right; left; reflexivity).
  pose proof (proj1 (profit_revenue_order (G := seed42_head))
                    3 2 0 1000 "Low Price"%string 5%Z (5 # 100) fresh_state
                    clipped_table _ _ _ Hv Hok Hin) as (_ & _ & H1 & H2 & _).
  split; [exact H1 | apply H2; reflexivity].
Defined.

(** * Further properties of the engine and of its caller *)

(** ** Sums and means *)

Lemma count_of_cons (x : Q) (xs : list Q) :
  count_of (x :: xs) == count_of xs + 1.
Proof.
  unfold count_of. simpl List.length. rewrite Nat2Z.inj_succ. unfold Z.succ.
  now rewrite inject_Z_plus.
Qed.

Lemma count_of_nonneg (xs : list Q) : 0 <= count_of xs.
Proof.
  unfold count_of. change 0 with (inject_Z 0). rewrite <- Zle_Qle. lia.
Qed.

Lemma count_of_pos (xs : list Q) : xs <> [] -> 0 < count_of xs.
Proof.
  destruct xs as [|x xs]; [congruence|]. intros _.
  rewrite count_of_cons. pose proof (count_of_nonneg xs). lra.
Qed.

Lemma mean_nonempty (xs : list Q) :
  xs <> [] -> mean xs = Some (total xs / count_of xs).
Proof. destruct xs; [congruence | reflexivity]. Qed.

Lemma total_bounds (lo hi : Q) (xs : list Q) :
  Forall (fun x => lo <= x <= hi) xs ->
  count_of xs * lo <= total xs <= count_of xs * hi.
Proof.
  induction 1 as [|x xs [Hl Hh] _ IH].
  - change (count_of []) with 0. change (total []) with 0. lra.
  - rewrite count_of_cons. unfold total in *; simpl fold_right. lra.
Qed.

Lemma mean_bounds (lo hi : Q) (xs : list Q) :
  xs <> [] -> Forall (fun x => lo <= x <= hi) xs ->
  exists m, mean xs = Some m /\ lo <= m <= hi.
Proof.
  intros Hne Hall. rewrite (mean_nonempty xs Hne). eexists. split; [reflexivity|].
  pose proof (count_of_pos xs Hne) as Hn.
  destruct (total_bounds lo hi xs Hall) as [Hl Hh].
  split.
  - apply Qle_shift_div_l; [exact Hn|]. lra.
  - apply Qle_shift_div_r; [exact Hn|]. lra.
Qed.

(** ** The break-even chance *)

Lemma indicator_range (bs : list bool) :
  Forall (fun x => 0 <= x <= 1) (map (fun b : bool => if b then 1 else 0) bs).
Proof.
  apply Forall_map, Forall_forall. intros [|] _; split; discriminate.
Qed.

Lemma Qlt_bool_mult_pos (d k : Q) : 0 < k -> Qlt_bool 0 (d * k) = Qlt_bool 0 d.
Proof.
  intros Hk. destruct (Qlt_bool 0 d) eqn:Hd.
  - apply Qlt_bool_iff in Hd. apply Qlt_bool_iff. nra.
  - apply Qlt_bool_false_iff in Hd. apply Qlt_bool_false_iff. nra.
Qed.

Lemma Qlt_bool_mult_nonpos (d k : Q) :
  0 <= d -> k <= 0 -> Qlt_bool 0 (d * k) = false.
Proof. intros Hd Hk. apply Qlt_bool_false_iff. nra. Qed.

(** The break-even chance of a table is undefined exactly for the empty
    table, and otherwise a number between 0 and 1. *)
Theorem breakeven_chance_range (df : DataFrame) :
  (Profit df = [] -> breakeven_chance df = None) /\
  (Profit df <> [] ->
   exists c, breakeven_chance df = Some c /\ 0 <= c <= 1).
Proof.
  unfold breakeven_chance. split.
  - intros ->. reflexivity.
  - intros Hne. apply mean_bounds; [|apply indicator_range].
    destruct (Profit df); [congruence | discriminate].
Qed.

Section Caller.

Context {G : LegacyGauss}.

(** Selling at or below cost never breaks even: with a market size that
    is not negative and at least one trial, every returned table has
    break-even chance 0. *)
Theorem breakeven_zero_at_or_below_cost
    (price cost elasticity market_size : Q) (strategy_type : string)
    (simulations : Z) (noise_std : Q) (st : RandomState) (df : DataFrame) :
  price <= cost -> 0 <= market_size -> (0 < simulations)%Z ->
  fst (simulate_strategy price cost elasticity market_size strategy_type
                         simulations noise_std st) = Ok df ->
  exists c, breakeven_chance df = Some c /\ c == 0.
Proof.
  intros Hp Hm Hn Hok.
  apply simulate_strategy_Ok in Hok as (_ & _ & _ & ->).
  unfold breakeven_chance. rewrite Profit_frame.
  set (xs := samples _ noise_std (Z.to_nat simulations)).
  assert (Hne : xs <> []).
  { intros E. apply (f_equal (@List.length Q)) in E. unfold xs in E.
    rewrite samples_length in E. simpl in E. lia. }
  destruct (mean_bounds 0 0
              (map (fun b : bool => if b then 1 else 0)
                   (map (fun p => Qlt_bool 0 p)
                        (map (fun x => clamp 0 market_size x * (price - cost))
                             xs)))) as (c & Hc & Hl & Hh).
  - destruct xs; [congruence | discriminate].
  - rewrite !map_map. apply Forall_map, Forall_forall. intros x _.
    rewrite Qlt_bool_mult_nonpos; [split; apply Qle_refl | | lra].
    now apply clamp_bounds.
  - exists c. split; [exact Hc | lra].
Qed.

(** Selling above cost, a trial makes a profit exactly when its demand is
    positive, so the break-even chance is the share of trials with
    positive demand. *)
Theorem breakeven_above_cost
    (price cost elasticity market_size : Q) (strategy_type : string)
    (simulations : Z) (noise_std : Q) (st : RandomState) (df : DataFrame) :
  cost < price ->
  fst (simulate_strategy price cost elasticity market_size strategy_type
                         simulations noise_std st) = Ok df ->
  breakeven_chance df =
    mean (map (fun b : bool => if b then 1 else 0)
              (map (fun d => Qlt_bool 0 d) (Demand df))) /\
  forall d r p, In (d, r, p) (rows df) -> (0 < p <-> 0 < d).
Proof.
  intros Hp Hok.
  apply simulate_strategy_Ok in Hok as (_ & _ & _ & ->).
  split.
  - unfold breakeven_chance. rewrite Profit_frame, Demand_frame.
    rewrite !map_map. f_equal. apply map_ext. intros x.
    rewrite Qlt_bool_mult_pos; [reflexivity | lra].
  - intros d r p Hin. apply In_rows_frame in Hin as (_ & _ & ->).
    rewrite <- !Qlt_bool_iff. rewrite Qlt_bool_mult_pos; [reflexivity | lra].
Qed.

(** ** Averages and bounds *)

Lemma total_nonneg (xs : list Q) : Forall (fun x => 0 <= x) xs -> 0 <= total xs.
Proof.
  induction 1 as [|x xs Hx _ IH]; unfold total in *; simpl; lra.
Qed.

Lemma total_nonpos (xs : list Q) : Forall (fun x => x <= 0) xs -> total xs <= 0.
Proof.
  induction 1 as [|x xs Hx _ IH]; unfold total in *; simpl; lra.
Qed.

Lemma mean_nonneg (xs : list Q) :
  xs <> [] -> Forall (fun x => 0 <= x) xs -> 0 <= total xs / count_of xs.
Proof.
  intros Hne Hall. apply Qle_shift_div_l; [now apply count_of_pos|].
  pose proof (total_nonneg xs Hall). lra.
Qed.

Lemma mean_nonpos (xs : list Q) :
  xs <> [] -> Forall (fun x => x <= 0) xs -> total xs / count_of xs <= 0.
Proof.
  intros Hne Hall. apply Qle_shift_div_r; [now apply count_of_pos|].
  pose proof (total_nonpos xs Hall). lra.
Qed.

(** The averages [main] shows are defined for a table with at least one
    trial and carry the sign of their column: with a market size that is
    not negative the average demand is not negative, the average revenue
    is not negative for a price that is not negative, and the average
    profit is not negative when selling at or above cost and not positive
    when selling at or below cost. *)
Theorem averages_sign
    (price cost elasticity market_size : Q) (strategy_type : string)
    (simulations : Z) (noise_std : Q) (st : RandomState) (df : DataFrame) :
  0 <= market_size -> (0 < simulations)%Z ->
  fst (simulate_strategy price cost elasticity market_size strategy_type
                         simulations noise_std st) = Ok df ->
  exists md mr mp,
    mean (Demand df) = Some md /\
    mean (Revenue df) = Some mr /\
    mean (Profit df) = Some mp /\
    0 <= md /\
    (0 <= price -> 0 <= mr) /\
    (cost <= price -> 0 <= mp) /\
    (price <= cost -> mp <= 0).
Proof.
  intros Hm Hn Hok.
  apply simulate_strategy_Ok in Hok as (_ & _ & _ & ->).
  unfold frame; simpl Demand; simpl Revenue; simpl Profit.
  set (ds := np_clip _ 0 market_size).
  assert (Hne : ds <> []).
  { intros E. apply (f_equal (@List.length Q)) in E. unfold ds, np_clip in E.
    rewrite length_map, samples_length in E. simpl in E. lia. }
  assert (Hds : Forall (fun d => 0 <= d <= market_size) ds)
    by (apply np_clip_Forall; exact Hm).
  assert (Hmap : forall k, map (fun d => d * k) ds <> [])
    by (intros k; destruct ds; [congruence | discriminate]).
  do 3 eexists.
  split; [apply mean_nonempty; exact Hne|].
  split; [apply mean_nonempty; apply Hmap|].
  split; [apply mean_nonempty; apply Hmap|].
  split; [|split; [|split]].
  - apply mean_nonneg; [exact Hne|].
    eapply Forall_impl; [|exact Hds]. intros d Hd; simpl in Hd. tauto.
  - intros Hp. apply mean_nonneg; [apply Hmap|].
    apply Forall_map. eapply Forall_impl; [|exact Hds].
    intros d Hd; simpl in *. nra.
  - intros Hp. apply mean_nonneg; [apply Hmap|].
    apply Forall_map. eapply Forall_impl; [|exact Hds].
    intros d Hd; simpl in *. nra.
  - intros Hp. apply mean_nonpos; [apply Hmap|].
    apply Forall_map. eapply Forall_impl; [|exact Hds].
    intros d Hd; simpl in *. nra.
Qed.

(** Row by row, with a positive market size: revenue is between 0 and
    [market_size * price] for a price that is not negative; profit is
    between 0 and [market_size * (price - cost)] when selling at or above
    cost and between [market_size * (price - cost)] and 0 when selling at
    or below cost; and profit never exceeds revenue when the cost is not
    negative. *)
Theorem row_bounds
    (price cost elasticity market_size : Q) (strategy_type : string)
    (simulations : Z) (noise_std : Q) (st : RandomState) (df : DataFrame)
    (d r p : Q) :
  0 < market_size ->
  fst (simulate_strategy price cost elasticity market_size strategy_type
                         simulations noise_std st) = Ok df ->
  In (d, r, p) (rows df) ->
  (0 <= price -> 0 <= r <= market_size * price) /\
  (cost <= price -> 0 <= p <= market_size * (price - cost)) /\
  (price <= cost -> market_size * (price - cost) <= p <= 0) /\
  (0 <= cost -> p <= r).
Proof.
  intros Hm Hok Hin.
  apply simulate_strategy_Ok in Hok as (_ & _ & _ & ->).
  apply In_rows_frame in Hin as (Hd & -> & ->).
  assert (Hb : 0 <= d <= market_size).
  { pose proof (np_clip_Forall
                  (samples (baseline price cost elasticity market_size)
                           noise_std (Z.to_nat simulations))
                  0 market_size (Qlt_le_weak _ _ Hm)) as HF.
    rewrite Forall_forall in HF. now apply HF. }
  repeat split; intros; nra.
Qed.

(** ** A market size that is negative *)

Lemma clamp_inverted (lo hi x : Q) : hi < lo -> clamp lo hi x = hi.
Proof.
  intros Hlh. unfold clamp, Qmin, GenericMinMax.gmin.
  assert (Hx : hi < Qmax x lo).
  { eapply Qlt_le_trans; [exact Hlh | apply Q.le_max_r]. }
  assert (Hc : (Qmax x lo ?= hi) = Gt) by (apply Qgt_alt; exact Hx).
  now rewrite Hc.
Qed.

(** The market size field has no lower bound.  With a negative market
    size the clip bounds are inverted and every demand of a returned
    table is the market size itself, a negative number. *)
Theorem negative_market_size_demand
    (price cost elasticity market_size : Q) (strategy_type : string)
    (simulations : Z) (noise_std : Q) (st : RandomState) (df : DataFrame) :
  market_size < 0 ->
  fst (simulate_strategy price cost elasticity market_size strategy_type
                         simulations noise_std st) = Ok df ->
  Forall (fun d => d = market_size /\ d < 0) (Demand df).
Proof.
  intros Hm Hok.
  apply simulate_strategy_Ok in Hok as (_ & _ & _ & ->).
  rewrite Demand_frame. apply Forall_map, Forall_forall. intros x _.
  rewrite clamp_inverted by exact Hm. split; [reflexivity | exact Hm].
Qed.

(** ** Selling at or below cost *)

Lemma markup_nonpositive (price cost elasticity : Q) :
  0 < cost -> 0 <= elasticity -> price <= cost ->
  elasticity * (price - cost) / cost <= 0.
Proof.
  intros Hc He Hp. apply Qle_shift_div_r; [exact Hc|]. nra.
Qed.

Lemma breakeven_zero_frame (price cost market_size : Q) (xs : list Q) :
  price <= cost -> 0 <= market_size -> xs <> [] ->
  exists c, breakeven_chance (frame price cost market_size xs) = Some c /\
            c == 0.
Proof.
  intros Hp Hm Hne. unfold breakeven_chance. rewrite Profit_frame.
  destruct (mean_bounds 0 0
              (map (fun b : bool => if b then 1 else 0)
                   (map (fun p => Qlt_bool 0 p)
                        (map (fun x => clamp 0 market_size x * (price - cost))
                             xs)))) as (c & Hc & Hl & Hh).
  - destruct xs; [congruence | discriminate].
  - rewrite !map_map. apply Forall_map, Forall_forall. intros x _.
    rewrite Qlt_bool_mult_nonpos; [split; apply Qle_refl | | lra].
    now apply clamp_bounds.
  - exists c. split; [exact Hc | lra].
Qed.

(** [main] with a cost inside the bound of its input field (at least
    0.1), an elasticity and a market size that are not negative and a
    preset or slider price at or below the cost always gets its table of
    10000 trials, and the break-even chance it reports is 0. *)
Theorem main_results_at_or_below_cost
    (strategy : string) (slider cost elasticity market_size : Q)
    (st : RandomState) :
  1 # 10 <= cost -> 0 <= elasticity -> 0 <= market_size ->
  strategy_price strategy slider <= cost ->
  exists df,
    main_results strategy slider cost elasticity market_size st
    = (Ok df, {| key := 42; pos := Z.to_nat simulations_default |}) /\
    Z.of_nat (List.length (rows df)) = 10000%Z /\
    exists c, breakeven_chance df = Some c /\ c == 0.
Proof.
  intros Hc He Hm Hp. unfold main_results. eexists. split; [|split].
  - apply simulate_strategy_returns; [lra | | discriminate].
    apply scale_signbit_nonpositive_markup;
      [exact Hm | discriminate | apply markup_nonpositive; lra].
  - rewrite rows_frame_length, samples_length. reflexivity.
  - apply breakeven_zero_frame; [exact Hp | exact Hm |].
    intros E. apply (f_equal (@List.length Q)) in E.
    rewrite samples_length in E. discriminate E.
Qed.

(** ** The elasticity model *)

(** For a positive cost, an elasticity and a market size that are not
    negative, a higher price never gives a higher baseline; the baseline
    is at least the market size at or below cost and at most the market
    size at or above cost. *)
Theorem base_demand_antitone
    (price1 price2 cost elasticity market_size : Q) (st : RandomState) :
  0 < cost -> 0 <= elasticity -> 0 <= market_size -> price1 <= price2 ->
  exists b1 b2,
    base_demand price1 cost elasticity market_size st = (Ok b1, st) /\
    base_demand price2 cost elasticity market_size st = (Ok b2, st) /\
    b2 <= b1 /\
    (price1 <= cost -> market_size <= b1) /\
    (cost <= price2 -> b2 <= market_size).
Proof.
  intros Hc He Hm Hp.
  assert (Hc0 : ~ cost == 0) by lra.
  exists (baseline price1 cost elasticity market_size),
         (baseline price2 cost elasticity market_size).
  split; [now apply base_demand_formula|].
  split; [now apply base_demand_formula|].
  unfold baseline.
  assert (H1 : elasticity * (price1 - cost) / cost * cost
               == elasticity * (price1 - cost)) by (field; exact Hc0).
  assert (H2 : elasticity * (price2 - cost) / cost * cost
               == elasticity * (price2 - cost)) by (field; exact Hc0).
  revert H1 H2.
  generalize (elasticity * (price1 - cost) / cost).
  generalize (elasticity * (price2 - cost) / cost).
  intros q2 q1 H1 H2.
  assert (Hq : q1 <= q2) by nra.
  repeat split.
  - nra.
  - intros Hp1. assert (q1 <= 0) by nra. nra.
  - intros Hp2. assert (0 <= q2) by nra. nra.
Qed.

(** ** Runs without noise *)

Lemma clamp_compat (lo hi x y : Q) : x == y -> clamp lo hi x == clamp lo hi y.
Proof. intros Hxy. unfold clamp. now rewrite Hxy. Qed.

Lemma clamp_at_least (hi x : Q) : hi <= x -> clamp 0 hi x == hi.
Proof.
  intros Hx. unfold clamp. apply Q.min_r.
  eapply Qle_trans; [exact Hx | apply Q.le_max_l].
Qed.

(** With [noise_std = 0] every trial of a returned table holds the same
    demand, the clamped baseline.  For a positive cost, an elasticity and
    a market size that are not negative and a price at or below cost the
    engine does return, and every row is the whole market:
    [market_size], [market_size * price],
    [market_size * (price - cost)]. *)
Theorem zero_noise_table
    (price cost elasticity market_size : Q) (strategy_type : string)
    (simulations : Z) (st : RandomState) :
  (forall df,
      fst (simulate_strategy price cost elasticity market_size strategy_type
                             simulations 0 st) = Ok df ->
      Forall (fun d =>
                d == clamp 0 market_size
                           (baseline price cost elasticity market_size))
             (Demand df)) /\
  (0 < cost -> 0 <= elasticity -> 0 <= market_size -> price <= cost ->
   (0 <= simulations)%Z ->
   exists df,
     fst (simulate_strategy price cost elasticity market_size strategy_type
                            simulations 0 st) = Ok df /\
     Z.of_nat (List.length (rows df)) = simulations /\
     Forall (fun row => fst (fst row) == market_size /\
                        snd (fst row) == market_size * price /\
                        snd row == market_size * (price - cost))
            (rows df)).
Proof.
  split.
  - intros df Hok.
    apply simulate_strategy_Ok in Hok as (_ & _ & _ & ->).
    rewrite Demand_frame. unfold samples.
    apply Forall_map, Forall_map, Forall_forall. intros i _.
    apply clamp_compat. ring.
  - intros Hc He Hm Hp Hn.
    pose proof (markup_nonpositive price cost elasticity Hc He Hp) as Hq.
    eexists. split; [|split].
    + rewrite simulate_strategy_returns; [reflexivity | lra | | exact Hn].
      apply scale_signbit_nonpositive_markup;
        [exact Hm | apply Qle_refl | exact Hq].
    + rewrite rows_frame_length, samples_length. lia.
    + rewrite rows_frame. unfold samples.
      apply Forall_map, Forall_map, Forall_forall. intros i _.
      cbv zeta. simpl fst; simpl snd.
      assert (Hd : clamp 0 market_size
                     (baseline price cost elasticity market_size +
                      baseline price cost elasticity market_size * 0
                      * legacy_gauss 42 i) == market_size).
      { apply clamp_at_least. unfold baseline.
        revert Hq. generalize (elasticity * (price - cost) / cost).
        intros q Hq. nra. }
      rewrite Hd. repeat split; reflexivity.
Qed.

(** ** Prefixes of a run *)

Lemma firstn_seq_le (k n start : nat) :
  (k <= n)%nat -> firstn k (seq start n) = seq start k.
Proof.
  revert n start. induction k as [|k IH]; intros n start Hk; [reflexivity|].
  destruct n as [|n]; [lia|]. simpl. f_equal. apply IH. lia.
Qed.

Lemma firstn_samples (b noise_std : Q) (k n : nat) :
  (k <= n)%nat -> firstn k (samples b noise_std n) = samples b noise_std k.
Proof.
  intros Hk. unfold samples. now rewrite firstn_map, firstn_seq_le.
Qed.

Lemma head_frame (price cost market_size : Q) (xs : list Q) (k : Z) :
  (0 <= k)%Z ->
  head k (frame price cost market_size xs) =
  frame price cost market_size (firstn (Z.to_nat k) xs).
Proof.
  intros Hk. unfold head, head_col, frame, np_clip; simpl.
  apply Z.leb_le in Hk. rewrite Hk. now rewrite !firstn_map.
Qed.

(** A run with fewer trials is a prefix of a run with more: when the run
    with [n] trials returns a table, the run with [k <= n] trials returns
    [head k] of that table, whatever state the generator was in.  In
    particular the preview [results.head(100)] of [main] is the table a
    100-trial run would give. *)
Theorem trial_prefix
    (price cost elasticity market_size : Q) (strategy_type : string)
    (k n : Z) (noise_std : Q) (st st' : RandomState) (df : DataFrame) :
  (0 <= k <= n)%Z ->
  fst (simulate_strategy price cost elasticity market_size strategy_type
                         n noise_std st) = Ok df ->
  fst (simulate_strategy price cost elasticity market_size strategy_type
                         k noise_std st') = Ok (head k df) /\
  Z.of_nat (List.length (rows (head k df))) = k.
Proof.
  intros [Hk Hkn] Hok.
  pose proof (simulate_strategy_Ok_signbit _ _ _ _ _ _ _ _ _ Hok) as Hsb.
  apply simulate_strategy_Ok in Hok as (Hc & Hs & Hn & ->).
  rewrite head_frame by exact Hk.
  rewrite firstn_samples by lia. split.
  - rewrite simulate_strategy_returns; [reflexivity | exact Hc | exact Hsb | exact Hk].
  - rewrite rows_frame_length, samples_length. lia.
Qed.

(** ** The break-even chance and the market size *)




(** ** The metric boxes and the preview *)

(** What [main] computes from the table.  When the simulation returns,
    the three metrics are all defined, the break-even percentage lies
    between 0 and 100 and the preview [results.head(100)] has exactly 100
    rows; when the simulation raises, the exception passes through and
    neither metrics nor preview are computed. *)
Theorem main_summary_outcome
    (strategy : string) (slider cost elasticity market_size : Q)
    (st : RandomState) :
  (forall (df : DataFrame) (st' : RandomState),
      main_results strategy slider cost elasticity market_size st
      = (Ok df, st') ->
      main_summary strategy slider cost elasticity market_size st
      = (Ok (summary df, head 100 df), st') /\
      (exists r p b,
          avg_revenue (summary df) = Some r /\
          avg_profit (summary df) = Some p /\
          breakeven_percent (summary df) = Some b /\ 0 <= b <= 100) /\
      Z.of_nat (List.length (rows (head 100 df))) = 100%Z) /\
  (forall (e : exn) (st' : RandomState),
      main_results strategy slider cost elasticity market_size st
      = (Raise e, st') ->
      main_summary strategy slider cost elasticity market_size st
      = (Raise e, st')).
Proof.
  split.
  - intros df st' Hrun. split; [|split].
    + unfold main_summary, bind. now rewrite Hrun.
    + assert (Hok : fst (main_results strategy slider cost elasticity
                                      market_size st) = Ok df)
        by now rewrite Hrun.
      unfold main_results in Hok.
      apply simulate_strategy_Ok in Hok as (_ & _ & _ & ->).
      set (price := strategy_price strategy slider).
      set (xs := samples _ noise_std_default (Z.to_nat simulations_default)).
      assert (Hlen : List.length xs = Z.to_nat simulations_default)
        by apply samples_length.
      assert (Hne : np_clip xs 0 market_size <> []).
      { intros E. apply (f_equal (@List.length Q)) in E.
        unfold np_clip in E. rewrite length_map, Hlen in E. discriminate E. }
      assert (Hmap : forall k, map (fun d => d * k) (np_clip xs 0 market_size)
                               <> []).
      { intros k. destruct (np_clip xs 0 market_size);
          [congruence | discriminate]. }
      unfold summary, frame; cbn [avg_revenue avg_profit breakeven_percent
                                  Revenue Profit Demand].
      destruct (mean_bounds 0 1
                  (map (fun b : bool => if b then 1 else 0)
                       (map (fun p => Qlt_bool 0 p)
                            (map (fun d => d * (price - cost))
                                 (np_clip xs 0 market_size)))))
        as (c & Hcm & Hc0 & Hc1).
      { destruct (np_clip xs 0 market_size); [congruence | discriminate]. }
      { apply indicator_range. }
      do 2 eexists. exists (c * 100).
      split; [apply mean_nonempty; apply Hmap|].
      split; [apply mean_nonempty; apply Hmap|].
      unfold breakeven_chance; cbn [Profit]. rewrite Hcm.
      split; [reflexivity | lra].
    + assert (Hok : fst (main_results strategy slider cost elasticity
                                      market_size st) = Ok df)
        by now rewrite Hrun.
      unfold main_results in Hok.
      apply simulate_strategy_Ok in Hok as (_ & _ & _ & ->).
      rewrite head_frame by discriminate.
      rewrite rows_frame_length, length_firstn, samples_length. reflexivity.
  - intros e st' Hrun. unfold main_summary, bind. now rewrite Hrun.
Qed.

End Caller.

(** ** Further runs on the fixtures *)

Lemma main_results_at_or_below_cost_witness :
  exists df,
    main_results (G := seed42_head) "Penetration" 5 2 1 10000 fresh_state
    = (Ok df, {| key := 42; pos := Z.to_nat simulations_default |}) /\
    Z.of_nat (List.length (rows df)) = 10000%Z /\
    exists c, breakeven_chance df = Some c /\ c == 0.
Proof.
  apply (main_results_at_or_below_cost (G := seed42_head)
           "Penetration" 5 2 1 10000 fresh_state).
  - vm_compute. discriminate.
  - vm_compute. discriminate.
  - vm_compute. discriminate.
  - vm_compute. discriminate.
Defined.

Lemma main_summary_outcome_witness :
  (exists r p b,
      avg_revenue
        (summary (table_of (main_results (G := seed42_head) "Low Price" 5 2 1
                                         10000 fresh_state))) = Some r /\
      avg_profit
        (summary (table_of (main_results (G := seed42_head) "Low Price" 5 2 1
                                         10000 fresh_state))) = Some p /\
      breakeven_percent
        (summary (table_of (main_results (G := seed42_head) "Low Price" 5 2 1
                                         10000 fresh_state))) = Some b /\
      0 <= b <= 100) /\
  main_summary (G := seed42_head) "Premium" 5 2 1 10000 fresh_state
  = (Raise (ValueError "scale < 0"), seeded).
Proof.
  split.
  - apply (proj1 (main_summary_outcome (G := seed42_head)
                    "Low Price" 5 2 1 10000 fresh_state)
                 (table_of (main_results (G := seed42_head) "Low Price" 5 2 1
                                         10000 fresh_state))
                 {| key := 42; pos := Z.to_nat simulations_default |}).
    vm_compute. reflexivity.
  - apply (proj2 (main_summary_outcome (G := seed42_head)
                    "Premium" 5 2 1 10000 fresh_state)).
    reflexivity.
Defined.

Lemma breakeven_chance_range_witness :
  breakeven_chance {| Demand := []; Revenue := []; Profit := [] |} = None /\
  exists c, breakeven_chance noisy_table = Some c /\ 0 <= c <= 1.
Proof.
  split.
  - apply (proj1 (breakeven_chance_range
                    {| Demand := []; Revenue := []; Profit := [] |})).
    reflexivity.
  - apply (proj2 (breakeven_chance_range noisy_table)).
    vm_compute. discriminate.
Defined.

Lemma breakeven_zero_at_or_below_cost_witness :
  exists c,
    breakeven_chance
      (table_of (simulate_strategy (G := seed42_head) (15 # 10) 2 1 1000
                                   "Penetration" 3 (5 # 100) fresh_state))
    = Some c /\ c == 0.
Proof.
  apply (breakeven_zero_at_or_below_cost (G := seed42_head)
           (15 # 10) 2 1 1000 "Penetration" 3 (5 # 100) fresh_state).
  - vm_compute. discriminate.
  - vm_compute. discriminate.
  - lia.
  - vm_compute. reflexivity.
Defined.

Lemma breakeven_above_cost_witness :
  breakeven_chance noisy_table =
  mean (map (fun b : bool => if b then 1 else 0)
            (map (fun d => Qlt_bool 0 d) (Demand noisy_table))).
Proof.
  apply (breakeven_above_cost (G := seed42_head)
           3 2 (1 # 2) 1000 "Low Price" 5 (5 # 100) fresh_state noisy_table).
  - reflexivity.
  - vm_compute. reflexivity.
Defined.

Lemma averages_sign_witness :
  exists md mr mp,
    mean (Demand clipped_table) = Some md /\
    mean (Revenue clipped_table) = Some mr /\
    mean (Profit clipped_table) = Some mp /\
    0 <= md /\ (0 <= 3 -> 0 <= mr) /\ (2 <= 3 -> 0 <= mp) /\
    (3 <= 2 -> mp <= 0).
Proof.
  apply (averages_sign (G := seed42_head)
           3 2 0 1000 "Low Price" 5 (5 # 100) fresh_state clipped_table).
  - vm_compute. discriminate.
  - lia.
  - vm_compute. reflexivity.
Defined.

Lemma row_bounds_witness :
  let row := nth 1 (rows clipped_table) (0, 0, 0) in
  0 <= snd (fst row) <= 1000 * 3 /\ 0 <= snd row <= 1000 * (3 - 2) /\
  snd row <= snd (fst row).
Proof.
  cbv zeta. set (row := nth 1 (rows clipped_table) (0, 0, 0)).
  assert (Hok : fst (simulate_strategy (G := seed42_head) 3 2 0 1000
                                       "Low Price" 5 (5 # 100) fresh_state)
                = Ok clipped_table) by (vm_compute; reflexivity).
  assert (Hin : In (fst (fst row), snd (fst row), snd row) (rows clipped_table))
    by (vm_compute; right; left; reflexivity).
  pose proof (row_bounds (G := seed42_head) 3 2 0 1000 "Low Price" 5 (5 # 100)
                         fresh_state clipped_table _ _ _
                         ltac:(reflexivity) Hok Hin) as (H1 & H2 & _ & H4).
  split; [apply H1 | split; [apply H2 | apply H4]]; vm_compute; discriminate.
Defined.

Lemma negative_market_size_demand_witness :
  Forall (fun d => d = - (1000) /\ d < 0)
         (Demand (table_of (simulate_strategy (G := seed42_head) 10 2 1
                                              (- (1000)) "Premium" 5 (5 # 100)
                                              fresh_state))).
Proof.
  apply (negative_market_size_demand (G := seed42_head)
           10 2 1 (- (1000)) "Premium" 5 (5 # 100) fresh_state).
  - reflexivity.
  - vm_compute. reflexivity.
Defined.

Lemma base_demand_antitone_witness :
  exists b1 b2,
    base_demand 3 2 1 1000 fresh_state = (Ok b1, fresh_state) /\
    base_demand 10 2 1 1000 fresh_state = (Ok b2, fresh_state) /\
    b2 <= b1 /\ (3 <= 2 -> 1000 <= b1) /\ (2 <= 10 -> b2 <= 1000).
Proof.
  apply (base_demand_antitone 3 10 2 1 1000 fresh_state).
  - reflexivity.
  - vm_compute. discriminate.
  - vm_compute. discriminate.
  - vm_compute. discriminate.
Defined.

Lemma zero_noise_table_witness :
  Forall (fun d => d == clamp 0 1000 (baseline 3 2 (1 # 2) 1000))
         (Demand (table_of (simulate_strategy (G := seed42_head) 3 2 (1 # 2)
                                              1000 "Low Price" 5 0
                                              fresh_state))) /\
  exists df,
    fst (simulate_strategy (G := seed42_head) (15 # 10) 2 1 1000 "Penetration"
                           3 0 fresh_state) = Ok df /\
    Z.of_nat (List.length (rows df)) = 3%Z /\
    Forall (fun row => fst (fst row) == 1000 /\
                       snd (fst row) == 1000 * (15 # 10) /\
                       snd row == 1000 * ((15 # 10) - 2))
           (rows df).
Proof.
  split.
  - apply (proj1 (zero_noise_table (G := seed42_head) 3 2 (1 # 2) 1000
                                   "Low Price" 5 fresh_state)).
    vm_compute. reflexivity.
  - apply (proj2 (zero_noise_table (G := seed42_head) (15 # 10) 2 1 1000
                                   "Penetration" 3 fresh_state)).
    + reflexivity.
    + vm_compute. discriminate.
    + vm_compute. discriminate.
    + vm_compute. discriminate.
    + lia.
Defined.

Lemma trial_prefix_witness :
  fst (simulate_strategy (G := seed42_head) 3 2 (1 # 2) 1000 "Low Price" 2
                         (5 # 100) seeded) = Ok (head 2 noisy_table) /\
  Z.of_nat (List.length (rows (head 2 noisy_table))) = 2%Z.
Proof.
  apply (trial_prefix (G := seed42_head) 3 2 (1 # 2) 1000 "Low Price" 2 5
                      (5 # 100) fresh_state seeded noisy_table).
  - lia.
  - vm_compute. reflexivity.
Defined.


